(** * multi_tool_agent/agent.py: the two lookup tools of the weather/time agent

    A shallow embedding of [get_weather] and [get_current_time] together
    with the parts of the Python runtime they call: [str.lower], string
    interpolation, dict literals, [ZoneInfo], [datetime.now] and
    [strftime].

    - A Python [str] is a sequence of Unicode code points: [list N].
    - A Python [dict] with string keys and string values is a
      [gmap (list N) (list N)].
    - A call runs in the ambient [World] (system clock and timezone
      database) and either returns a value or raises: the [Py] monad. *)

From Stdlib Require Import ZArith NArith List String Ascii Bool Lia.
From stdpp Require Import base gmap strings list.

Local Open Scope Z_scope.

(** ** Python strings *)

Abbreviation str := (list N).

Definition ord (a : ascii) : N := N_of_ascii a.

(** An ASCII literal of the source as a Python string. *)
Definition pystr (s : string) : str := map ord (list_ascii_of_string s).

Definition is_ascii (c : N) : bool := (c <? 128)%N.

(** Lowercase of an ASCII code point: [A]..[Z] go to [a]..[z]. *)
Definition ascii_lower (c : N) : N :=
  if ((65 <=? c) && (c <=? 90))%N then (c + 32)%N else c.

(** Code points of the Greek sigmas, the one context-sensitive case of
    lowercasing. *)
Definition KELVIN_SIGN : N := 0x212A%N.
Definition CAPITAL_SIGMA : N := 0x3A3%N.
Definition FINAL_SIGMA : N := 0x3C2%N.
Definition SMALL_SIGMA : N := 0x3C3%N.

(** Python [in] on strings: [needle in hay]. *)
Fixpoint is_prefix (needle hay : str) : bool :=
  match needle, hay with
  | [], _ => true
  | _ :: _, [] => false
  | x :: n', y :: h' => (x =? y)%N && is_prefix n' h'
  end.

Fixpoint contains (needle hay : str) : bool :=
  is_prefix needle hay ||
  match hay with
  | [] => false
  | _ :: h' => contains needle h'
  end.

(** Python [<=] on strings: the order of the dictionary, by code point. *)
Fixpoint str_le (a b : str) : bool :=
  match a, b with
  | [], _ => true
  | _ :: _, [] => false
  | x :: a', y :: b' => (x <? y)%N || ((x =? y)%N && str_le a' b')
  end.

(** ** The ambient world and the [Py] monad *)

(** The timezone rule in effect at some instant: seconds east of UTC and
    the zone's short name. *)
Record tzrule := { utcoffset : Z; tzname : str }.

(** A [ZoneInfo] object: for each UTC instant (POSIX seconds) the rule in
    effect then. *)
Record ZoneInfo := { rule_at : Z → tzrule }.

(** [clock]: the system clock, whole POSIX seconds (the format of
    [get_current_time] prints no sub-second field).
    [tzdata]: the IANA timezone database, by key. *)
Record World := { clock : Z; tzdata : gmap (list N) ZoneInfo }.

Inductive exn := ZoneInfoNotFoundError (key : str).

Inductive outcome (A : Type) :=
  | Return (a : A)
  | Raise (e : exn).
Arguments Return {A} a.
Arguments Raise {A} e.

Definition Py (A : Type) : Type := World → outcome A.

#[global] Instance Py_ret : MRet Py := λ A a _, Return a.

#[global] Instance Py_bind : MBind Py := λ A B k m w,
  match m w with
  | Return a => k a w
  | Raise e => Raise e
  end.

(** [ZoneInfo(key)]: the database entry, or [ZoneInfoNotFoundError]. *)
Definition zone_info (key : str) : Py ZoneInfo :=
  fun w => match tzdata w !! key with
           | Some tz => Return tz
           | None => Raise (ZoneInfoNotFoundError key)
           end.

(** ** Calendar arithmetic of [datetime] *)

(** Proleptic Gregorian date of a day number (days since 1970-01-01). *)
Definition civil_from_days (z : Z) : Z * Z * Z :=
  let z := z + 719468 in
  let era := z / 146097 in
  let doe := z mod 146097 in
  let yoe := (doe - doe / 1460 + doe / 36524 - doe / 146096) / 365 in
  let doy := doe - (365 * yoe + yoe / 4 - yoe / 100) in
  let mp := (5 * doy + 2) / 153 in
  let d := doy - (153 * mp + 2) / 5 + 1 in
  let m := if mp <? 10 then mp + 3 else mp - 9 in
  let y := yoe + era * 400 in
  (if m <=? 2 then y + 1 else y, m, d).

(** The inverse: day number of a proleptic Gregorian date. *)
Definition days_from_civil (y m d : Z) : Z :=
  let y := if m <=? 2 then y - 1 else y in
  let era := y / 400 in
  let yoe := y - era * 400 in
  let doy := (153 * (if 2 <? m then m - 3 else m + 9) + 2) / 5 + d - 1 in
  let doe := yoe * 365 + yoe / 4 - yoe / 100 + doy in
  era * 146097 + doe - 719468.

(** An aware [datetime]: local civil fields and the rule of its zone at
    that instant ([tzname()] and [utcoffset()]). *)
Record datetime := {
  year : Z; month : Z; day : Z;
  hour : Z; minute : Z; second : Z;
  tzinfo : tzrule
}.

(** [tz.fromutc]: the local civil time of UTC instant [t] under rule [r]. *)
Definition fromutc (t : Z) (r : tzrule) : datetime :=
  let l := t + utcoffset r in
  let '(y, m, d) := civil_from_days (l / 86400) in
  let sod := l mod 86400 in
  {| year := y; month := m; day := d;
     hour := sod / 3600; minute := sod mod 3600 / 60; second := sod mod 60;
     tzinfo := r |}.

(** The runtime reads the system clock into a signed 64-bit count of
    nanoseconds, and keeps the nearest bound when the count does not fit. *)
Definition PyTime_MIN : Z := - 2 ^ 63.
Definition PyTime_MAX : Z := 2 ^ 63 - 1.
Definition SEC_TO_NS : Z := 1000000000.

Definition PyTime_GetSystemClock (w : World) : Z :=
  Z.max PyTime_MIN (Z.min PyTime_MAX (clock w * SEC_TO_NS)).

(** The whole seconds of the time read, rounded down. *)
Definition now_seconds (w : World) : Z := PyTime_GetSystemClock w / SEC_TO_NS.

(** [datetime.datetime.now(tz)]: reads the clock. *)
Definition datetime_now (tz : ZoneInfo) : Py datetime :=
  fun w => Return (fromutc (now_seconds w) (rule_at tz (now_seconds w))).

(** ** [strftime] *)

(** [n] in decimal, zero-padded to [w] digits (for [0 <= n < 10^w]). *)
Fixpoint zpad (w : nat) (n : Z) : str :=
  match w with
  | O => []
  | S w' => zpad w' (n / 10) ++ [Z.to_N (48 + n mod 10)]
  end.

(** [n] in decimal, as many digits as it has (for [0 <= n]). *)
Fixpoint decimal_digits (fuel : nat) (n : Z) : str :=
  match fuel with
  | O => []
  | S fuel' =>
      (if n <? 10 then [] else decimal_digits fuel' (n / 10))
      ++ [Z.to_N (48 + n mod 10)]
  end.

Definition decimal (n : Z) : str := decimal_digits (S (Z.to_nat (Z.log2 n))) n.

(** [%z]: sign, hours and minutes of the UTC offset, and the seconds too
    when the offset is not a whole number of minutes. *)
Definition format_utcoffset (off : Z) : str :=
  let a := Z.abs off in
  (if off <? 0 then pystr "-" else pystr "+")
    ++ zpad 2 (a / 3600) ++ zpad 2 (a mod 3600 / 60)
    ++ (if a mod 60 =? 0 then [] else zpad 2 (a mod 60)).

(** One directive of the format; a directive the program does not use is
    left as it is written. [%Y] is the year in decimal, not padded. *)
Definition directive (c : N) (dt : datetime) : str :=
  if (c =? ord "Y")%N then decimal (year dt)
  else if (c =? ord "m")%N then zpad 2 (month dt)
  else if (c =? ord "d")%N then zpad 2 (day dt)
  else if (c =? ord "H")%N then zpad 2 (hour dt)
  else if (c =? ord "M")%N then zpad 2 (minute dt)
  else if (c =? ord "S")%N then zpad 2 (second dt)
  else if (c =? ord "Z")%N then tzname (tzinfo dt)
  else if (c =? ord "z")%N then format_utcoffset (utcoffset (tzinfo dt))
  else if (c =? ord "%")%N then pystr "%"
  else [ord "%"; c].

Fixpoint strftime (fmt : str) (dt : datetime) : str :=
  match fmt with
  | [] => []
  | c :: rest =>
      if (c =? ord "%")%N then
        match rest with
        | [] => [c]
        | d :: rest' => directive d dt ++ strftime rest' dt
        end
      else c :: strftime rest dt
  end.

(** ** Reading a timestamp back

    The instant (POSIX seconds) that a text of the form
    [YYYY-MM-DD HH:MM:SS NAME+HHMM] or [YYYY-MM-DD HH:MM:SS NAME+HHMMSS]
    denotes: the civil time minus the printed UTC offset. The date and time
    stand at fixed columns, the offset at the end. *)









(** ** Patterns

    Regular expressions over code points, matched by derivatives; enough
    for the pattern the specification gives for the time report. *)

Inductive regex :=
  | Void
  | Eps
  | Range (lo hi : N)
  | Alt (r1 r2 : regex)
  | Cat (r1 r2 : regex).

Fixpoint nullable (r : regex) : bool :=
  match r with
  | Void => false
  | Eps => true
  | Range _ _ => false
  | Alt r1 r2 => nullable r1 || nullable r2
  | Cat r1 r2 => nullable r1 && nullable r2
  end.

Fixpoint deriv (c : N) (r : regex) : regex :=
  match r with
  | Void => Void
  | Eps => Void
  | Range lo hi => if ((lo <=? c) && (c <=? hi))%N then Eps else Void
  | Alt r1 r2 => Alt (deriv c r1) (deriv c r2)
  | Cat r1 r2 =>
      if nullable r1 then Alt (Cat (deriv c r1) r2) (deriv c r2)
      else Cat (deriv c r1) r2
  end.

(** The whole of [s] matches [r]. *)
Fixpoint fullmatch (r : regex) (s : str) : bool :=
  match s with
  | [] => nullable r
  | c :: s' => fullmatch (deriv c r) s'
  end.








(** [datetime]'s leap years and lengths of months. *)
Definition is_leap (y : Z) : bool :=
  (y mod 4 =? 0) && (negb (y mod 100 =? 0) || (y mod 400 =? 0)).

Definition days_in_month (y m : Z) : Z :=
  if m =? 2 then (if is_leap y then 29 else 28)
  else if (m =? 4) || (m =? 6) || (m =? 9) || (m =? 11) then 30
  else 31.

(** ** Sample environments *)

(** A character database that maps every non-ASCII code point to itself,
    but the Kelvin sign to [k]. *)
Definition sample_tolower (c : N) : list N :=
  if (c =? 0x212A)%N then [ord "k"] else [c].

Definition sample_final_sigma (s : str) (i : nat) : bool := false.

(** America/New_York around the end of daylight saving time on
    2024-11-03, 06:00:00 UTC. *)
Definition sample_new_york : ZoneInfo :=
  {| rule_at := fun t =>
       if t <? 1730613600
       then {| utcoffset := -14400; tzname := pystr "EDT" |}
       else {| utcoffset := -18000; tzname := pystr "EST" |} |}.

Definition sample_tzdata : gmap (list N) ZoneInfo :=
  {[ pystr "America/New_York" := sample_new_york ]}.

(** 2024-07-04 16:00:00 UTC, and a second later. *)
Definition sample_world : World := {| clock := 1720108800; tzdata := sample_tzdata |}.
Definition sample_world_later : World := {| clock := 1720108801; tzdata := sample_tzdata |}.





(** A clock past what the runtime reads, and the clock a second later. *)
Definition world_past_reading : World := {| clock := 9223372037; tzdata := sample_tzdata |}.
Definition world_past_reading_later : World := {| clock := 9223372038; tzdata := sample_tzdata |}.

(** A runtime without timezone data. *)
Definition world_without_tzdata : World := {| clock := 1720108800; tzdata := ∅ |}.

(** ** The program *)

Section Agent.

(** The Unicode character database of the runtime: the full lowercase
    mapping of the non-ASCII code points, and whether the capital sigma
    at index [i] of [s] stands in the Final_Sigma context. *)
Variable tolower_full : N → list N.
Variable final_sigma : list N → nat → bool.

Definition to_lower (c : N) : list N :=
  if is_ascii c then [ascii_lower c] else tolower_full c.

(** Lowercase of one code point; [final] matters for capital sigma only. *)
Definition lower_char (final : bool) (c : N) : list N :=
  if (c =? CAPITAL_SIGMA)%N
  then [if final then FINAL_SIGMA else SMALL_SIGMA]
  else to_lower c.

Fixpoint do_lower (s : str) (i : nat) (rest : str) : str :=
  match rest with
  | [] => []
  | c :: rest' => lower_char (final_sigma s i) c ++ do_lower s (S i) rest'
  end.

(** [str.lower()]. *)
Definition lower (s : str) : str := do_lower s 0 s.

Definition get_weather (city : str) : Py (gmap (list N) (list N)) :=
  if decide (lower city = pystr "new york") then
    mret {[ pystr "status" := pystr "success";
           pystr "report" :=
             pystr "The weather in New York is sunny with a temperature of 25 degrees"
             ++ pystr " Celsius (77 degrees Fahrenheit)." ]}
  else
    mret {[ pystr "status" := pystr "error";
           pystr "error_message" :=
             pystr "Weather information for '" ++ city
             ++ pystr "' is not available." ]}.

Definition get_current_time (city : str) : Py (gmap (list N) (list N)) :=
  if decide (lower city = pystr "new york") then
    let tz_identifier := pystr "America/New_York" in
    tz ← zone_info tz_identifier;
    now ← datetime_now tz;
    let report :=
      pystr "The current time in " ++ city ++ pystr " is "
      ++ strftime (pystr "%Y-%m-%d %H:%M:%S %Z%z") now in
    mret {[ pystr "status" := pystr "success"; pystr "report" := report ]}
  else
    mret {[ pystr "status" := pystr "error";
           pystr "error_message" :=
             pystr "Sorry, I don't have timezone information for " ++ city
             ++ pystr "." ]}.

(** The tag of a returned result; [None] when the call raised. *)
Definition status_of (o : outcome (gmap (list N) (list N))) : option (list N) :=
  match o with
  | Return d => d !! pystr "status"
  | Raise _ => None
  end.

(** Two code points are the same letter up to case, and two strings
    differ in letter case only. *)
Definition same_letter (x y : N) : Prop := lower_char false x = lower_char false y.

Definition same_up_to_case (a b : list N) : Prop := Forall2 same_letter a b.

(** The payload of a returned result, by its key; [None] when the call
    raised or the key is absent. *)
Definition report_of (o : outcome (gmap (list N) (list N))) : option (list N) :=
  match o with
  | Return d => d !! pystr "report"
  | Raise _ => None
  end.

Definition error_message_of (o : outcome (gmap (list N) (list N))) : option (list N) :=
  match o with
  | Return d => d !! pystr "error_message"
  | Raise _ => None
  end.

(** ** Facts about [in] on strings *)

Lemma is_prefix_app_sep (needle a b : list N) (x : N) :
  x ∉ needle → is_prefix needle (a ++ x :: b) = is_prefix needle a.
Proof.
  revert a. induction needle as [|n0 needle IH]; intros a Hx; [by destruct a|].
  apply not_elem_of_cons in Hx as [Hne Hx].
  destruct a as [|y a]; simpl.
  - replace (n0 =? x)%N with false; [done|].
    symmetry. apply N.eqb_neq. congruence.
  - by rewrite IH.
Qed.

Lemma contains_app_sep (needle a b : list N) (x : N) :
  x ∉ needle →
  contains needle (a ++ x :: b) = contains needle a || contains needle b.
Proof.
  intros Hx. induction a as [|y a IH].
  - change (contains needle ([] ++ x :: b))
      with (is_prefix needle ([] ++ x :: b) || contains needle b).
    rewrite is_prefix_app_sep by done. simpl. by rewrite orb_false_r.
  - change (contains needle ((y :: a) ++ x :: b))
      with (is_prefix needle ((y :: a) ++ x :: b) || contains needle (a ++ x :: b)).
    rewrite is_prefix_app_sep, IH by done.
    change (contains needle (y :: a))
      with (is_prefix needle (y :: a) || contains needle a).
    by rewrite orb_assoc.
Qed.

Lemma is_prefix_app (needle b : list N) : is_prefix needle (needle ++ b) = true.
Proof. induction needle as [|x n IH]; [done|]. simpl. by rewrite N.eqb_refl. Qed.

Lemma contains_middle (needle a b : list N) : contains needle (a ++ needle ++ b) = true.
Proof.
  induction a as [|y a IH].
  - simpl. destruct (needle ++ b) eqn:E; simpl; rewrite <- ?E, is_prefix_app; done.
  - simpl. rewrite IH. apply orb_true_r.
Qed.

(** The weather error message mentions whatever the city mentions, and
    nothing else that has the letter [u] in it. *)
Lemma weather_message_contains (needle city : list N) :
  ord "'" ∉ needle →
  contains needle (pystr "Weather information for ") = false →
  contains needle (pystr " is not available.") = false →
  contains needle
    (pystr "Weather information for '" ++ city ++ pystr "' is not available.")
  = contains needle city.
Proof.
  intros Hq Hp Hs.
  change (pystr "Weather information for '" ++ city ++ pystr "' is not available.")
    with ((pystr "Weather information for " ++ [ord "'"])
            ++ city ++ ord "'" :: pystr " is not available.").
  rewrite <- app_assoc. simpl ([ord "'"] ++ _).
  rewrite !contains_app_sep, Hp, Hs by done.
  by rewrite orb_false_r.
Qed.

(** ** The two branches of the tools *)

Lemma get_weather_match (city : list N) (w : World) :
  lower city = pystr "new york" →
  get_weather city w =
    Return {[ pystr "status" := pystr "success";
              pystr "report" :=
                pystr "The weather in New York is sunny with a temperature of 25 degrees Celsius (77 degrees Fahrenheit)." ]}.
Proof. intros H. unfold get_weather. by rewrite decide_True. Qed.

Lemma get_weather_no_match (city : list N) (w : World) :
  lower city ≠ pystr "new york" →
  get_weather city w =
    Return {[ pystr "status" := pystr "error";
              pystr "error_message" :=
                pystr "Weather information for '" ++ city
                ++ pystr "' is not available." ]}.
Proof. intros H. unfold get_weather. by rewrite decide_False. Qed.

Lemma get_current_time_no_match (city : list N) (w : World) :
  lower city ≠ pystr "new york" →
  get_current_time city w =
    Return {[ pystr "status" := pystr "error";
              pystr "error_message" :=
                pystr "Sorry, I don't have timezone information for " ++ city
                ++ pystr "." ]}.
Proof. intros H. unfold get_current_time. by rewrite decide_False. Qed.

Lemma get_current_time_match (city : list N) (w : World) :
  lower city = pystr "new york" →
  get_current_time city w =
    match tzdata w !! pystr "America/New_York" with
    | Some tz =>
        Return {[ pystr "status" := pystr "success";
                  pystr "report" :=
                    pystr "The current time in " ++ city ++ pystr " is "
                    ++ strftime (pystr "%Y-%m-%d %H:%M:%S %Z%z")
                         (fromutc (now_seconds w) (rule_at tz (now_seconds w))) ]}
    | None => Raise (ZoneInfoNotFoundError (pystr "America/New_York"))
    end.
Proof.
  intros H. unfold get_current_time. rewrite decide_True by done.
  unfold mbind, Py_bind, zone_info.
  by destruct (tzdata w !! pystr "America/New_York").
Qed.

(** ** Facts about [lower] *)

Lemma lower_char_sigma (final : bool) :
  Forall (λ c, is_ascii c = true) (lower_char final CAPITAL_SIGMA) → False.
Proof. destruct final; intros H; by apply Forall_cons in H as [? _]. Qed.

Lemma lower_char_not_sigma (final : bool) (c : N) :
  c ≠ CAPITAL_SIGMA → lower_char final c = lower_char false c.
Proof. intros H. unfold lower_char. by apply N.eqb_neq in H as ->. Qed.

Lemma lower_char_ascii_result (final : bool) (c : N) :
  Forall (λ c, is_ascii c = true) (lower_char final c) →
  lower_char final c = lower_char false c.
Proof.
  intros H. destruct (decide (c = CAPITAL_SIGMA)) as [->|Hc].
  - by apply lower_char_sigma in H.
  - by apply lower_char_not_sigma.
Qed.

Lemma do_lower_ascii_result (s : list N) (i : nat) (rest : list N) :
  Forall (λ c, is_ascii c = true) (do_lower s i rest) →
  do_lower s i rest = flat_map (lower_char false) rest.
Proof.
  revert i. induction rest as [|c rest IH]; intros i H; [done|].
  simpl in *. apply Forall_app in H as [Hc Hrest].
  by rewrite (lower_char_ascii_result _ _ Hc), (IH _ Hrest).
Qed.

Lemma do_lower_of_ascii_letters (s : list N) (i : nat) (rest : list N) :
  Forall (λ c, is_ascii c = true) (flat_map (lower_char false) rest) →
  do_lower s i rest = flat_map (lower_char false) rest.
Proof.
  revert i. induction rest as [|c rest IH]; intros i H; [done|].
  simpl in *. apply Forall_app in H as [Hc Hrest].
  rewrite (IH _ Hrest). f_equal.
  destruct (decide (c = CAPITAL_SIGMA)) as [->|Hne].
  - by apply lower_char_sigma in Hc.
  - by apply lower_char_not_sigma.
Qed.

Lemma same_up_to_case_letters (a b : list N) :
  same_up_to_case a b →
  flat_map (lower_char false) a = flat_map (lower_char false) b.
Proof. induction 1 as [|x y a b Hxy _ IH]; [done|]. simpl. by rewrite Hxy, IH. Qed.

Lemma same_up_to_case_sym (a b : list N) : same_up_to_case a b → same_up_to_case b a.
Proof. unfold same_up_to_case, same_letter. induction 1; constructor; done. Qed.

(** Strings that differ in letter case only lower to the same ASCII text,
    if one of them lowers to ASCII text at all. *)
Lemma lower_same_up_to_case (a b target : list N) :
  Forall (λ c, is_ascii c = true) target →
  same_up_to_case a b → lower a = target → lower b = target.
Proof.
  intros Ht Hab Ha. unfold lower in *.
  rewrite <- Ha in Ht. rewrite do_lower_ascii_result in Ha, Ht by done.
  rewrite (same_up_to_case_letters _ _ Hab) in Ha, Ht.
  by rewrite do_lower_of_ascii_letters.
Qed.

Lemma new_york_ascii : Forall (λ c, is_ascii c = true) (pystr "new york").
Proof. by repeat constructor. Qed.

Lemma status_of_get_weather (city : list N) (w : World) :
  status_of (get_weather city w) =
    Some (if decide (lower city = pystr "new york")
          then pystr "success" else pystr "error").
Proof. unfold get_weather. by case_decide. Qed.

(** ** The weather tool *)

(** C1: for every city whose lowercase form is "new york", [get_weather]
    returns the success result (status "success") whose report is exactly
    the canned sentence about New York. *)
Theorem C1_get_weather_new_york (city : list N) (w : World) :
  lower city = pystr "new york" →
  get_weather city w =
    Return {[ pystr "status" := pystr "success";
              pystr "report" :=
                pystr "The weather in New York is sunny with a temperature of 25 degrees Celsius (77 degrees Fahrenheit)." ]}
  ∧ status_of (get_weather city w) = Some (pystr "success").
Proof.
  intros H. split; [by apply get_weather_match|].
  rewrite status_of_get_weather. by rewrite decide_True.
Qed.

(** C2 (amended): for every city whose lowercase form is not "new york",
    [get_weather] returns the error result whose message is exactly
    "Weather information for '" + city + "' is not available.", with
    the input as it was given. The message contains the city, and it
    contains "sunny" exactly when the city does. For "Beijing" the
    message is "Weather information for 'Beijing' is not available.". *)
Theorem C2_get_weather_error (city : list N) (w : World) :
  lower city ≠ pystr "new york" →
  get_weather city w =
    Return {[ pystr "status" := pystr "error";
              pystr "error_message" :=
                pystr "Weather information for '" ++ city
                ++ pystr "' is not available." ]}
  ∧ contains city
      (pystr "Weather information for '" ++ city ++ pystr "' is not available.")
    = true
  ∧ contains (pystr "sunny")
      (pystr "Weather information for '" ++ city ++ pystr "' is not available.")
    = contains (pystr "sunny") city
  ∧ get_weather (pystr "Beijing") w =
      Return {[ pystr "status" := pystr "error";
                pystr "error_message" :=
                  pystr "Weather information for 'Beijing' is not available." ]}.
Proof.
  intros H. split; [by apply get_weather_no_match|].
  split; [apply contains_middle|].
  split.
  - apply weather_message_contains; [|done..].
    intros Hq%list_elem_of_In. simpl in Hq. intuition discriminate.
  - by rewrite get_weather_no_match.
Qed.

(** C5: matching ignores letter case and nothing else. The three
    spellings "New York", "new york" and "NEW YORK" give the same success
    result; two inputs that differ in letter case only take the same
    branch; and an input takes the success branch only if its lowercase
    form is "new york", so that added blanks or other punctuation are not
    forgiven. *)
Theorem C5_case_insensitive_matching (w : World) :
  (get_weather (pystr "New York") w = get_weather (pystr "new york") w
   ∧ get_weather (pystr "new york") w = get_weather (pystr "NEW YORK") w
   ∧ status_of (get_weather (pystr "New York") w) = Some (pystr "success"))
  ∧ (∀ a b : list N, same_up_to_case a b →
       (lower a = pystr "new york" ↔ lower b = pystr "new york")
       ∧ status_of (get_weather a w) = status_of (get_weather b w))
  ∧ (∀ city : list N,
       status_of (get_weather city w) = Some (pystr "success")
       ↔ lower city = pystr "new york")
  ∧ status_of (get_weather (pystr " New York") w) = Some (pystr "error")
  ∧ status_of (get_weather (pystr "New York ") w) = Some (pystr "error")
  ∧ status_of (get_weather (pystr "New  York") w) = Some (pystr "error")
  ∧ status_of (get_weather (pystr "New-York") w) = Some (pystr "error").
Proof.
  split; [by rewrite !get_weather_match|].
  split.
  - intros a b Hab.
    assert (lower a = pystr "new york" ↔ lower b = pystr "new york") as Hiff.
    { split; apply lower_same_up_to_case;
        auto using new_york_ascii, same_up_to_case_sym. }
    split; [done|]. rewrite !status_of_get_weather.
    do 2 case_decide; tauto.
  - split; [|by rewrite !get_weather_no_match].
    intros city. rewrite status_of_get_weather. by case_decide.
Qed.

(** ** The time tool on an unsupported city *)

(** C3: for every city whose lowercase form is not "new york",
    [get_current_time] returns the error result whose message is exactly
    "Sorry, I don't have timezone information for " + city + ".", with
    the input as it was given. *)
Theorem C3_get_current_time_error (city : list N) (w : World) :
  lower city ≠ pystr "new york" →
  get_current_time city w =
    Return {[ pystr "status" := pystr "error";
              pystr "error_message" :=
                pystr "Sorry, I don't have timezone information for " ++ city
                ++ pystr "." ]}
  ∧ status_of (get_current_time city w) = Some (pystr "error").
Proof. intros H. by rewrite get_current_time_no_match. Qed.

(** ** Results of either tool *)

Lemma success_dict_shape (report : list N) :
  let d : gmap (list N) (list N) :=
    {[ pystr "status" := pystr "success"; pystr "report" := report ]} in
  d !! pystr "status" = Some (pystr "success")
  ∧ d !! pystr "report" = Some report
  ∧ d !! pystr "error_message" = None
  ∧ dom d = {[ pystr "status"; pystr "report" ]}.
Proof. by repeat split. Qed.

Lemma error_dict_shape (msg : list N) :
  let d : gmap (list N) (list N) :=
    {[ pystr "status" := pystr "error"; pystr "error_message" := msg ]} in
  d !! pystr "status" = Some (pystr "error")
  ∧ d !! pystr "error_message" = Some msg
  ∧ d !! pystr "report" = None
  ∧ dom d = {[ pystr "status"; pystr "error_message" ]}.
Proof. by repeat split. Qed.

Lemma Return_inj {A : Type} (a b : A) : Return a = Return b → a = b.
Proof. by intros [= ->]. Qed.

(** C6: every dict that [get_weather] or [get_current_time] returns is
    one of the two variants and not the other: its status is "success"
    and its only other key is "report", or its status is "error"
    and its only other key is "error_message". *)
Theorem C6_exactly_one_variant (city : list N) (w : World) (d : gmap (list N) (list N)) :
  get_weather city w = Return d ∨ get_current_time city w = Return d →
  (d !! pystr "status" = Some (pystr "success")
   ∧ is_Some (d !! pystr "report")
   ∧ d !! pystr "error_message" = None
   ∧ dom d = {[ pystr "status"; pystr "report" ]})
  ∨ (d !! pystr "status" = Some (pystr "error")
     ∧ is_Some (d !! pystr "error_message")
     ∧ d !! pystr "report" = None
     ∧ dom d = {[ pystr "status"; pystr "error_message" ]}).
Proof.
  intros H.
  assert ((∃ r, d = {[ pystr "status" := pystr "success"; pystr "report" := r ]})
          ∨ (∃ m, d = {[ pystr "status" := pystr "error";
                          pystr "error_message" := m ]})) as [[r ->]|[m ->]].
  { destruct (decide (lower city = pystr "new york")) as [Hm|Hm], H as [H|H].
    - rewrite get_weather_match in H by done. left. eexists. apply Return_inj in H as <-. reflexivity.
    - rewrite get_current_time_match in H by done.
      destruct (tzdata w !! pystr "America/New_York"); [|done].
      left. eexists. apply Return_inj in H as <-. reflexivity.
    - rewrite get_weather_no_match in H by done. right. eexists. apply Return_inj in H as <-. reflexivity.
    - rewrite get_current_time_no_match in H by done. right. eexists.
      apply Return_inj in H as <-. reflexivity. }
  - left. destruct (success_dict_shape r) as (? & -> & ? & ?). eauto.
  - right. destruct (error_dict_shape m) as (? & -> & ? & ?). eauto.
Qed.



(** C10: the result of [get_weather] is the same in every world, and so
    is the result of [get_current_time] on an input whose lowercase form
    is not "new york"; on a matching input the result of
    [get_current_time] does change with the world. *)
Theorem C10_time_independent_errors (city : list N) (w1 w2 : World) :
  get_weather city w1 = get_weather city w2
  ∧ (lower city ≠ pystr "new york" →
     get_current_time city w1 = get_current_time city w2)
  ∧ (lower city = pystr "new york" →
     get_current_time city sample_world ≠ get_current_time city sample_world_later
     ∧ get_current_time city sample_world ≠ get_current_time city world_without_tzdata).
Proof.
  split; [|split].
  - unfold get_weather. by case_decide.
  - intros H. by rewrite !get_current_time_no_match.
  - intros H. rewrite !get_current_time_match by done. split; [|done].
    intros Heq.
    apply (f_equal (λ o, match o with
                         | Return d => d !! pystr "report"
                         | Raise _ => None
                         end)) in Heq.
    change (Some (pystr "The current time in " ++ city ++ pystr " is "
                  ++ pystr "2024-07-04 12:00:00 EDT-0400")
            = Some (pystr "The current time in " ++ city ++ pystr " is "
                    ++ pystr "2024-07-04 12:00:01 EDT-0400")) in Heq.
    apply (inj Some) in Heq. do 3 apply app_inv_head in Heq. done.
Qed.

(** ** Facts about the calendar *)

Ltac euclid := Z.to_euclidean_division_equations; lia.

(** The date of a day number is a date of the calendar, and the day
    number of that date is the day number again. *)
Lemma days_from_civil_from_days (z y m d : Z) :
  civil_from_days z = (y, m, d) →
  days_from_civil y m d = z ∧ 1 <= m <= 12 ∧ 1 <= d <= 31.
Proof.
  unfold civil_from_days. cbv zeta.
  pose proof (Z.mod_pos_bound (z + 719468) 146097 eq_refl) as Hdoe.
  pose proof (Z.div_mod (z + 719468) 146097 ltac:(done)) as Hz.
  set (doe := (z + 719468) mod 146097) in *.
  set (era := (z + 719468) / 146097) in *.
  set (yoe := (doe - doe / 1460 + doe / 36524 - doe / 146096) / 365).
  assert (0 <= yoe <= 399) as Hyoe by (subst yoe; euclid).
  set (doy := doe - (365 * yoe + yoe / 4 - yoe / 100)).
  assert (0 <= doy <= 365) as Hdoy by (subst doy yoe; euclid).
  set (mp := (5 * doy + 2) / 153).
  assert (0 <= mp <= 11 ∧ 1 <= doy - (153 * mp + 2) / 5 + 1 <= 31) as [Hmp Hd]
    by (subst mp; euclid).
  intros [= <- <- <-]. unfold days_from_civil.
  destruct (Z.ltb_spec mp 10) as [Hlt|Hge].
  - assert ((mp + 3 <=? 2) = false) as -> by (apply Z.leb_gt; lia).
    assert ((2 <? mp + 3) = true) as -> by (apply Z.ltb_lt; lia).
    replace (mp + 3 - 3) with mp by lia.
    replace ((yoe + era * 400) / 400) with era by euclid.
    replace (yoe + era * 400 - era * 400) with yoe by lia.
    subst doy. split; lia.
  - assert ((mp - 9 <=? 2) = true) as -> by (apply Z.leb_le; lia).
    assert ((2 <? mp - 9) = false) as -> by (apply Z.ltb_ge; lia).
    replace (mp - 9 + 9) with mp by lia.
    replace (yoe + era * 400 + 1 - 1) with (yoe + era * 400) by lia.
    replace ((yoe + era * 400) / 400) with era by euclid.
    replace (yoe + era * 400 - era * 400) with yoe by lia.
    subst doy. split; lia.
Qed.

(** The civil fields of [fromutc] are those of a wall clock, and they
    add up to the local time. *)
Lemma fromutc_fields (t : Z) (r : tzrule) :
  1 <= month (fromutc t r) <= 12 ∧ 1 <= day (fromutc t r) <= 31
  ∧ 0 <= hour (fromutc t r) <= 23
  ∧ 0 <= minute (fromutc t r) <= 59
  ∧ 0 <= second (fromutc t r) <= 59
  ∧ tzinfo (fromutc t r) = r
  ∧ days_from_civil (year (fromutc t r)) (month (fromutc t r)) (day (fromutc t r))
      * 86400
    + hour (fromutc t r) * 3600 + minute (fromutc t r) * 60 + second (fromutc t r)
    = t + utcoffset r.
Proof.
  unfold fromutc.
  destruct (civil_from_days ((t + utcoffset r) / 86400)) as [[y m] d] eqn:E.
  apply days_from_civil_from_days in E as (E & Hm & Hd).
  cbn [year month day hour minute second tzinfo]. rewrite E.
  repeat split; try lia; euclid.
Qed.

(** ** Facts about decimal fields *)






(** ** Facts about patterns *)

Lemma fullmatch_Void (s : list N) : fullmatch Void s = false.
Proof. by induction s. Qed.








(** ** When two calls give the same result *)

Lemma status_of_get_current_time_no_match (city : list N) (w : World) :
  lower city ≠ pystr "new york" →
  status_of (get_current_time city w) = Some (pystr "error").
Proof. intros H. by rewrite get_current_time_no_match. Qed.

Lemma status_of_get_current_time_match (city : list N) (w : World) :
  lower city = pystr "new york" →
  status_of (get_current_time city w) ≠ Some (pystr "error").
Proof.
  intros H. rewrite get_current_time_match by done.
  by destruct (tzdata w !! pystr "America/New_York").
Qed.

(** X1: two calls of [get_weather] give the same result exactly when both
    inputs are spellings of New York or the inputs are the same string:
    the error message tells unsupported cities apart. *)
Theorem get_weather_same_result_iff (c1 c2 : list N) (w1 w2 : World) :
  get_weather c1 w1 = get_weather c2 w2
  ↔ (lower c1 = pystr "new york" ∧ lower c2 = pystr "new york") ∨ c1 = c2.
Proof.
  split.
  - intros Heq.
    destruct (decide (lower c1 = pystr "new york")) as [H1|H1],
             (decide (lower c2 = pystr "new york")) as [H2|H2]; [by left|..].
    + apply (f_equal status_of) in Heq. rewrite !status_of_get_weather in Heq.
      by rewrite decide_True, decide_False in Heq.
    + apply (f_equal status_of) in Heq. rewrite !status_of_get_weather in Heq.
      by rewrite decide_False, decide_True in Heq.
    + right. apply (f_equal error_message_of) in Heq.
      rewrite !get_weather_no_match in Heq by done.
      change (Some (pystr "Weather information for '" ++ c1
                    ++ pystr "' is not available.")
              = Some (pystr "Weather information for '" ++ c2
                      ++ pystr "' is not available.")) in Heq.
      apply (inj Some), app_inv_head in Heq. by apply app_inv_tail in Heq.
  - intros [[H1 H2]| ->]; [by rewrite !get_weather_match|].
    unfold get_weather. by case_decide.
Qed.

(** X2: on an unsupported city, [get_current_time] gives the same result as
    another call exactly when the other call has the same input: its error
    message tells unsupported cities apart, and no supported city gives an
    error. *)
Theorem get_current_time_error_names_city (c1 c2 : list N) (w1 w2 : World) :
  lower c1 ≠ pystr "new york" →
  get_current_time c1 w1 = get_current_time c2 w2 ↔ c1 = c2.
Proof.
  intros H1. split.
  - intros Heq.
    destruct (decide (lower c2 = pystr "new york")) as [H2|H2].
    + apply (f_equal status_of) in Heq.
      rewrite status_of_get_current_time_no_match in Heq by done.
      symmetry in Heq. by apply status_of_get_current_time_match in Heq.
    + apply (f_equal error_message_of) in Heq.
      rewrite !get_current_time_no_match in Heq by done.
      change (Some (pystr "Sorry, I don't have timezone information for " ++ c1
                    ++ pystr ".")
              = Some (pystr "Sorry, I don't have timezone information for " ++ c2
                      ++ pystr ".")) in Heq.
      apply (inj Some), app_inv_head in Heq. by apply app_inv_tail in Heq.
  - intros <-. by rewrite !get_current_time_no_match.
Qed.


(** ** ASCII input *)

Lemma lower_char_ascii (final : bool) (c : N) :
  is_ascii c = true → lower_char final c = [ascii_lower c].
Proof.
  intros Hc. unfold lower_char, to_lower. rewrite Hc.
  assert ((c =? CAPITAL_SIGMA)%N = false) as ->; [|done].
  apply N.eqb_neq. intros ->. done.
Qed.

Lemma do_lower_ascii (s : list N) (i : nat) (rest : list N) :
  Forall (λ c, is_ascii c = true) rest →
  do_lower s i rest = map ascii_lower rest.
Proof.
  revert i. induction rest as [|c rest IH]; intros i H; [done|].
  apply Forall_cons in H as [Hc Hrest].
  simpl. by rewrite lower_char_ascii, IH.
Qed.

Lemma do_lower_ascii_elem (s : list N) (i : nat) (rest : list N) (c : N) :
  c ∈ rest → is_ascii c = true → ascii_lower c ∈ do_lower s i rest.
Proof.
  revert i. induction rest as [|x rest IH]; intros i Hin Hc.
  - by apply elem_of_nil in Hin.
  - simpl. apply elem_of_app. apply elem_of_cons in Hin as [<-|Hin].
    + left. rewrite lower_char_ascii by done. apply elem_of_cons. by left.
    + right. by apply IH.
Qed.

(** X7: on an input of ASCII characters, [lower] is the ASCII lowercase
    character by character, so that both tools accept the input exactly
    when it is "new york" up to the case of its ASCII letters, whatever
    the character database says of other code points. *)
Theorem ascii_city_match_iff (city : list N) (w : World) :
  Forall (λ c, is_ascii c = true) city →
  lower city = map ascii_lower city
  ∧ (status_of (get_weather city w) = Some (pystr "success")
     ↔ map ascii_lower city = pystr "new york")
  ∧ (status_of (get_current_time city w) = Some (pystr "error")
     ↔ map ascii_lower city ≠ pystr "new york").
Proof.
  intros H. assert (lower city = map ascii_lower city) as Hl
    by (by apply do_lower_ascii).
  split; [done|]. rewrite <- Hl. split.
  - rewrite status_of_get_weather. by case_decide.
  - split.
    + intros Hs Hm. by apply (status_of_get_current_time_match city w) in Hm.
    + apply status_of_get_current_time_no_match.
Qed.

(** X8: an input that has an ASCII character other than the letters of
    "new york" in either case and the blank is an unsupported city for
    both tools, whatever else it has: no digit, tab, line break, quote or
    other punctuation gets through the match. *)
Theorem stray_ascii_rejected (city : list N) (c : N) (w : World) :
  c ∈ city → is_ascii c = true → ascii_lower c ∉ pystr "new york" →
  status_of (get_weather city w) = Some (pystr "error")
  ∧ status_of (get_current_time city w) = Some (pystr "error").
Proof.
  intros Hin Hc Hout.
  assert (lower city ≠ pystr "new york") as Hm.
  { intros Heq. apply Hout. rewrite <- Heq. by apply do_lower_ascii_elem. }
  split.
  - rewrite status_of_get_weather. by rewrite decide_False.
  - by apply status_of_get_current_time_no_match.
Qed.

(** ** More facts about the calendar *)

(** The date of a day number is a date of the calendar: the day is one of
    its month, in that year. *)
Lemma civil_from_days_valid (z y m d : Z) :
  civil_from_days z = (y, m, d) → 1 <= m <= 12 ∧ 1 <= d <= days_in_month y m.
Proof.
  unfold civil_from_days. cbv zeta.
  pose proof (Z.mod_pos_bound (z + 719468) 146097 eq_refl) as Hdoe.
  set (doe := (z + 719468) mod 146097) in *.
  set (era := (z + 719468) / 146097) in *.
  set (yoe := (doe - doe / 1460 + doe / 36524 - doe / 146096) / 365).
  assert (0 <= yoe <= 399) as Hyoe by (subst yoe; euclid).
  set (doy := doe - (365 * yoe + yoe / 4 - yoe / 100)).
  assert (0 <= doy <= 365) as Hdoy by (subst doy yoe; euclid).
  assert (doy = 365 →
          (yoe + 1) mod 4 = 0 ∧ ((yoe + 1) mod 100 ≠ 0 ∨ yoe = 399)) as Hleap
    by (subst doy yoe; euclid).
  set (mp := (5 * doy + 2) / 153).
  assert (0 <= mp <= 11) as Hmp by (subst mp; euclid).
  set (d' := doy - (153 * mp + 2) / 5 + 1).
  assert (1 <= d' ∧ (mp = 11 → d' = doy - 336)
          ∧ (mp = 1 ∨ mp = 3 ∨ mp = 6 ∨ mp = 8 → d' <= 30)
          ∧ d' <= 31) as (Hd1 & Hfeb & H30 & H31) by (subst d' mp; euclid).
  clearbody d' mp doy yoe doe.
  intros [= <- <- <-]. unfold days_in_month, is_leap.
  assert (mp = 0 ∨ mp = 1 ∨ mp = 2 ∨ mp = 3 ∨ mp = 4 ∨ mp = 5 ∨ mp = 6
          ∨ mp = 7 ∨ mp = 8 ∨ mp = 9 ∨ mp = 10 ∨ mp = 11) as Hcases by lia.
  repeat destruct Hcases as [->|Hcases]; try subst mp; simpl; try lia.
  split; [lia|]. split; [lia|].
  repeat match goal with
         | |- context [?a =? ?b] => destruct (Z.eqb_spec a b)
         end; simpl; euclid.
Qed.

(** Later day numbers have later dates. *)
Lemma civil_from_days_mono (z1 z2 y1 m1 d1 y2 m2 d2 : Z) :
  z1 <= z2 →
  civil_from_days z1 = (y1, m1, d1) →
  civil_from_days z2 = (y2, m2, d2) →
  y1 < y2 ∨ (y1 = y2 ∧ (m1 < m2 ∨ (m1 = m2 ∧ d1 <= d2))).
Proof.
  intros Hz. unfold civil_from_days. cbv zeta.
  pose proof (Z.mod_pos_bound (z1 + 719468) 146097 eq_refl) as Hdoe1.
  pose proof (Z.mod_pos_bound (z2 + 719468) 146097 eq_refl) as Hdoe2.
  pose proof (Z.div_mod (z1 + 719468) 146097 ltac:(done)) as Hz1.
  pose proof (Z.div_mod (z2 + 719468) 146097 ltac:(done)) as Hz2.
  set (doe1 := (z1 + 719468) mod 146097) in *.
  set (doe2 := (z2 + 719468) mod 146097) in *.
  set (era1 := (z1 + 719468) / 146097) in *.
  set (era2 := (z2 + 719468) / 146097) in *.
  set (yoe1 := (doe1 - doe1 / 1460 + doe1 / 36524 - doe1 / 146096) / 365).
  set (yoe2 := (doe2 - doe2 / 1460 + doe2 / 36524 - doe2 / 146096) / 365).
  assert (0 <= yoe1 <= 399) as Hyoe1 by (subst yoe1; euclid).
  assert (0 <= yoe2 <= 399) as Hyoe2 by (subst yoe2; euclid).
  set (doy1 := doe1 - (365 * yoe1 + yoe1 / 4 - yoe1 / 100)).
  set (doy2 := doe2 - (365 * yoe2 + yoe2 / 4 - yoe2 / 100)).
  assert (0 <= doy1 <= 365) as Hdoy1 by (subst doy1 yoe1; euclid).
  assert (0 <= doy2 <= 365) as Hdoy2 by (subst doy2 yoe2; euclid).
  assert (doe1 <= doe2 → yoe1 < yoe2 ∨ (yoe1 = yoe2 ∧ doy1 <= doy2)) as Hyear
    by (subst doy1 doy2 yoe1 yoe2; euclid).
  set (mp1 := (5 * doy1 + 2) / 153).
  set (mp2 := (5 * doy2 + 2) / 153).
  assert (0 <= mp1 <= 11) as Hmp1 by (subst mp1; euclid).
  assert (0 <= mp2 <= 11) as Hmp2 by (subst mp2; euclid).
  assert (doy1 <= doy2 →
          mp1 < mp2 ∨ (mp1 = mp2 ∧ doy1 - (153 * mp1 + 2) / 5 + 1
                                     <= doy2 - (153 * mp2 + 2) / 5 + 1)) as Hmonth
    by (subst mp1 mp2; euclid).
  clearbody mp1 mp2 doy1 doy2 yoe1 yoe2 era1 era2 doe1 doe2.
  intros [= <- <- <-] [= <- <- <-].
  destruct (Z.ltb_spec mp1 10), (Z.ltb_spec mp2 10);
    repeat match goal with
           | |- context [?a <=? ?b] => destruct (Z.leb_spec a b)
           end; lia.
Qed.

(** The civil fields of a later instant under the same rule are later, in
    the order year, month, day, hour, minute, second. *)
Lemma fromutc_mono (t1 t2 : Z) (r : tzrule) :
  t1 <= t2 →
  year (fromutc t1 r) < year (fromutc t2 r)
  ∨ (year (fromutc t1 r) = year (fromutc t2 r)
     ∧ (month (fromutc t1 r) < month (fromutc t2 r)
        ∨ (month (fromutc t1 r) = month (fromutc t2 r)
           ∧ (day (fromutc t1 r) < day (fromutc t2 r)
              ∨ (day (fromutc t1 r) = day (fromutc t2 r)
                 ∧ (hour (fromutc t1 r) < hour (fromutc t2 r)
                    ∨ (hour (fromutc t1 r) = hour (fromutc t2 r)
                       ∧ (minute (fromutc t1 r) < minute (fromutc t2 r)
                          ∨ (minute (fromutc t1 r) = minute (fromutc t2 r)
                             ∧ second (fromutc t1 r) <= second (fromutc t2 r)))))))))).
Proof.
  intros Ht. unfold fromutc.
  destruct (civil_from_days ((t1 + utcoffset r) / 86400)) as [[y1 m1] d1] eqn:E1.
  destruct (civil_from_days ((t2 + utcoffset r) / 86400)) as [[y2 m2] d2] eqn:E2.
  cbn [year month day hour minute second].
  assert ((t1 + utcoffset r) / 86400 <= (t2 + utcoffset r) / 86400) as Hdays
    by euclid.
  pose proof (civil_from_days_mono _ _ _ _ _ _ _ _ Hdays E1 E2) as Hdate.
  apply days_from_civil_from_days in E1 as (E1 & _).
  apply days_from_civil_from_days in E2 as (E2 & _).
  destruct (decide (y1 = y2 ∧ m1 = m2 ∧ d1 = d2)) as [(-> & -> & ->)|Hne].
  - rewrite E1 in E2. right. split; [done|]. right. split; [done|].
    right. split; [done|]. euclid.
  - lia.
Qed.

(** ** Facts about the order of strings *)

Lemma str_le_refl (s : list N) : str_le s s = true.
Proof.
  induction s as [|c s IH]; [done|].
  simpl. rewrite N.eqb_refl, IH. apply orb_true_r.
Qed.

Lemma str_le_app_same (p a b : list N) : str_le (p ++ a) (p ++ b) = str_le a b.
Proof.
  induction p as [|c p IH]; [done|].
  simpl. by rewrite N.ltb_irrefl, N.eqb_refl, IH.
Qed.

(** Numbers of the same width sort as their decimal texts do. *)
Lemma str_le_zpad (w : nat) (a b : Z) (r1 r2 : list N) :
  0 <= a < 10 ^ Z.of_nat w → 0 <= b < 10 ^ Z.of_nat w →
  str_le (zpad w a ++ r1) (zpad w b ++ r2) = (a <? b) || ((a =? b) && str_le r1 r2).
Proof.
  revert a b r1 r2. induction w as [|w IH]; intros a b r1 r2 Ha Hb.
  - simpl in *. assert (a = 0) as -> by lia. by assert (b = 0) as -> by lia.
  - rewrite Nat2Z.inj_succ, Z.pow_succ_r in * by lia.
    change (zpad (S w) a) with (zpad w (a / 10) ++ [Z.to_N (48 + a mod 10)]).
    change (zpad (S w) b) with (zpad w (b / 10) ++ [Z.to_N (48 + b mod 10)]).
    rewrite <- !app_assoc, IH by euclid.
    change (str_le ([Z.to_N (48 + a mod 10)] ++ r1) ([Z.to_N (48 + b mod 10)] ++ r2))
      with ((Z.to_N (48 + a mod 10) <? Z.to_N (48 + b mod 10))%N
            || ((Z.to_N (48 + a mod 10) =? Z.to_N (48 + b mod 10))%N
                && str_le r1 r2)).
    destruct (Z.ltb_spec (a / 10) (b / 10)), (Z.eqb_spec (a / 10) (b / 10)),
             (Z.ltb_spec a b), (Z.eqb_spec a b),
             (N.ltb_spec (Z.to_N (48 + a mod 10)) (Z.to_N (48 + b mod 10))),
             (N.eqb_spec (Z.to_N (48 + a mod 10)) (Z.to_N (48 + b mod 10)));
      simpl; try done; exfalso; euclid.
Qed.

(** ** The date of a local time *)

Lemma fromutc_date_valid (t : Z) (r : tzrule) :
  1 <= month (fromutc t r) <= 12
  ∧ 1 <= day (fromutc t r) <= days_in_month (year (fromutc t r)) (month (fromutc t r)).
Proof.
  unfold fromutc.
  destruct (civil_from_days ((t + utcoffset r) / 86400)) as [[y m] d] eqn:E.
  by apply civil_from_days_valid in E.
Qed.

(** ** Input that is not ASCII *)

Lemma do_lower_app (s : list N) (i : nat) (a b : list N) :
  do_lower s i (a ++ b) = do_lower s i a ++ do_lower s (i + length a) b.
Proof.
  revert i. induction a as [|c a IH]; intros i.
  - simpl. by rewrite Nat.add_0_r.
  - simpl. rewrite IH, <- app_assoc. do 3 f_equal. lia.
Qed.

Lemma do_lower_length (lo hi : nat) (s : list N) (i : nat) (rest : list N) :
  (∀ c, lo <= length (tolower_full c) <= hi)%nat → (lo <= 1 <= hi)%nat →
  (lo * length rest <= length (do_lower s i rest) <= hi * length rest)%nat.
Proof.
  intros Htable Hone. revert i. induction rest as [|c rest IH]; intros i.
  - simpl. lia.
  - simpl. rewrite length_app. specialize (IH (S i)).
    assert (lo <= length (lower_char (final_sigma s i) c) <= hi)%nat.
    { unfold lower_char, to_lower.
      destruct (c =? CAPITAL_SIGMA)%N; [simpl; lia|].
      destruct (is_ascii c); [simpl; lia|apply Htable]. }
    lia.
Qed.

(** X9: where the character database lowers the Kelvin sign to [k], as
    Unicode does, a spelling of New York with the Kelvin sign for its last
    letter is a supported city for both tools, though it is not ASCII. *)
Theorem kelvin_spelling_accepted (pre : list N) (w : World) :
  tolower_full KELVIN_SIGN = [ord "k"] →
  Forall (λ c, is_ascii c = true) pre →
  map ascii_lower pre = pystr "new yor" →
  lower (pre ++ [KELVIN_SIGN]) = pystr "new york"
  ∧ status_of (get_weather (pre ++ [KELVIN_SIGN]) w) = Some (pystr "success")
  ∧ status_of (get_current_time (pre ++ [KELVIN_SIGN]) w) ≠ Some (pystr "error").
Proof.
  intros Hk Hpre Hlow.
  assert (lower (pre ++ [KELVIN_SIGN]) = pystr "new york") as Hl.
  { unfold lower. rewrite do_lower_app, do_lower_ascii, Hlow by done.
    simpl do_lower. unfold lower_char, to_lower.
    change (KELVIN_SIGN =? CAPITAL_SIGMA)%N with false.
    change (is_ascii KELVIN_SIGN) with false. by rewrite Hk. }
  split; [done|]. split.
  - rewrite status_of_get_weather. by rewrite decide_True.
  - by apply status_of_get_current_time_match.
Qed.

(** X10: where the character database lowers every code point to one, two or
    three code points, as Unicode does, a supported city has from 3 to 8
    code points: the empty input and every input of more than 8 code points
    get the error result from both tools. *)
Theorem supported_city_length (city : list N) (w : World) :
  (∀ c, 1 <= length (tolower_full c) <= 3)%nat →
  (status_of (get_weather city w) = Some (pystr "success")
   → 3 <= length city <= 8)%nat
  ∧ ((length city < 3 ∨ 8 < length city)%nat →
     status_of (get_weather city w) = Some (pystr "error")
     ∧ status_of (get_current_time city w) = Some (pystr "error")).
Proof.
  intros Htable.
  assert (lower city = pystr "new york" → 3 <= length city <= 8)%nat as Hlen.
  { intros Hl.
    pose proof (do_lower_length 1 3 city 0 city Htable ltac:(lia)) as Hb.
    fold (lower city) in Hb. rewrite Hl in Hb. simpl in Hb. lia. }
  split.
  - rewrite status_of_get_weather. case_decide; [auto|done].
  - intros Hout. assert (lower city ≠ pystr "new york") as Hm
      by (intros Hl; apply Hlen in Hl; lia).
    split.
    + rewrite status_of_get_weather. by rewrite decide_False.
    + by apply status_of_get_current_time_no_match.
Qed.

(** ** Facts about the clock *)

Lemma now_seconds_range (w : World) : -9223372037 <= now_seconds w <= 9223372036.
Proof. unfold now_seconds, PyTime_GetSystemClock, PyTime_MIN, PyTime_MAX, SEC_TO_NS.
  change (2 ^ 63) with 9223372036854775808. euclid.
Qed.


Lemma now_seconds_mono (w1 w2 : World) :
  clock w1 <= clock w2 → now_seconds w1 <= now_seconds w2.
Proof.
  intros H. unfold now_seconds, PyTime_GetSystemClock, PyTime_MIN, PyTime_MAX, SEC_TO_NS.
  change (2 ^ 63) with 9223372036854775808. euclid.
Qed.

(** Whatever the clock, the local year of the time read is one of 1677 to
    2262, for a UTC offset within a day either way. *)
Lemma fromutc_year_range (t : Z) (r : tzrule) :
  -9223372037 <= t <= 9223372036 → -86400 < utcoffset r < 86400 →
  1677 <= year (fromutc t r) <= 2262.
Proof.
  intros Ht Hoff. unfold fromutc.
  destruct (civil_from_days ((t + utcoffset r) / 86400)) as [[y m] d] eqn:E.
  cbn [year].
  assert (-106753 <= (t + utcoffset r) / 86400 <= 106752) as [Hlo Hhi] by euclid.
  pose proof (civil_from_days_mono _ _ 1677 9 20 _ _ _ Hlo eq_refl E).
  pose proof (civil_from_days_mono _ _ _ _ _ 2262 4 12 Hhi E eq_refl).
  lia.
Qed.

(** ** Facts about [strftime] *)

Lemma decimal_digits_step (fuel : nat) (n : Z) :
  decimal_digits (S fuel) n =
    (if n <? 10 then [] else decimal_digits fuel (n / 10))
    ++ [Z.to_N (48 + n mod 10)].
Proof. reflexivity. Qed.

(** A year of four digits prints as they are. *)
Lemma decimal_four_digits (y : Z) : 1000 <= y <= 9999 → decimal y = zpad 4 y.
Proof.
  intros Hy. unfold decimal.
  assert (9 <= Z.log2 y) as Hlog by (apply (Z.log2_le_mono 512 y); lia).
  destruct (Z.to_nat (Z.log2 y)) as [|[|[|fuel]]] eqn:E; try lia.
  rewrite !decimal_digits_step.
  assert ((y <? 10) = false) as -> by (apply Z.ltb_ge; lia).
  assert ((y / 10 <? 10) = false) as -> by (apply Z.ltb_ge; euclid).
  assert ((y / 10 / 10 <? 10) = false) as -> by (apply Z.ltb_ge; euclid).
  assert ((y / 10 / 10 / 10 <? 10) = true) as -> by (apply Z.ltb_lt; euclid).
  reflexivity.
Qed.

Lemma strftime_format (dt : datetime) :
  1000 <= year dt <= 9999 →
  strftime (pystr "%Y-%m-%d %H:%M:%S %Z%z") dt =
    zpad 4 (year dt) ++ pystr "-" ++ zpad 2 (month dt) ++ pystr "-"
    ++ zpad 2 (day dt) ++ pystr " "
    ++ zpad 2 (hour dt) ++ pystr ":" ++ zpad 2 (minute dt) ++ pystr ":"
    ++ zpad 2 (second dt) ++ pystr " "
    ++ tzname (tzinfo dt) ++ format_utcoffset (utcoffset (tzinfo dt)).
Proof.
  intros Hy. rewrite <- decimal_four_digits by done.
  rewrite <- (app_nil_r (format_utcoffset (utcoffset (tzinfo dt)))). reflexivity.
Qed.




(** ** Facts about reading a timestamp back *)








(** ** The time tool on New York *)



(** ** More about the time tool on New York *)


(** X6: the date in the report of [get_current_time] is a date of the
    calendar: a year of four digits, 1677 to 2262, month 1 to 12, and a day
    that the month has in that year (29 February in leap years only), for a
    UTC offset within a day either way. *)
Theorem time_report_date_is_valid (city : list N) (w : World) (tz : ZoneInfo) :
  lower city = pystr "new york" →
  tzdata w !! pystr "America/New_York" = Some tz →
  -86400 < utcoffset (rule_at tz (now_seconds w)) < 86400 →
  ∃ (y m d : Z) (rest : list N),
    report_of (get_current_time city w) =
      Some (pystr "The current time in " ++ city ++ pystr " is "
            ++ zpad 4 y ++ pystr "-" ++ zpad 2 m ++ pystr "-" ++ zpad 2 d
            ++ pystr " " ++ rest)
    ∧ 1677 <= y <= 2262 ∧ 1 <= m <= 12 ∧ 1 <= d <= days_in_month y m.
Proof.
  intros Hcity Htz Hoff.
  pose proof (fromutc_year_range _ _ (now_seconds_range w) Hoff) as Hyear.
  destruct (fromutc_date_valid (now_seconds w) (rule_at tz (now_seconds w)))
    as [Hm Hd].
  set (now := fromutc (now_seconds w) (rule_at tz (now_seconds w))) in *.
  exists (year now), (month now), (day now),
    (zpad 2 (hour now) ++ pystr ":" ++ zpad 2 (minute now) ++ pystr ":"
     ++ zpad 2 (second now) ++ pystr " "
     ++ tzname (tzinfo now) ++ format_utcoffset (utcoffset (tzinfo now))).
  split; [|done].
  rewrite get_current_time_match, Htz by done. fold now.
  rewrite <- strftime_format by lia. reflexivity.
Qed.

(** X5: two calls of [get_current_time] on the same spelling of New York,
    the second with a clock not behind the first and with the same zone
    rule in effect (the same short name and the same UTC offset, within a
    day either way), give reports that sort as strings in the order of the
    calls. *)
Theorem time_reports_sorted_under_one_rule
    (city : list N) (w1 w2 : World) (tz : ZoneInfo) :
  lower city = pystr "new york" →
  tzdata w1 !! pystr "America/New_York" = Some tz →
  tzdata w2 !! pystr "America/New_York" = Some tz →
  rule_at tz (now_seconds w1) = rule_at tz (now_seconds w2) →
  -86400 < utcoffset (rule_at tz (now_seconds w1)) < 86400 →
  clock w1 <= clock w2 →
  ∃ r1 r2 : list N,
    report_of (get_current_time city w1) = Some r1
    ∧ report_of (get_current_time city w2) = Some r2
    ∧ str_le r1 r2 = true.
Proof.
  intros Hcity Htz1 Htz2 Hrule Hoff Hclock.
  pose proof (fromutc_year_range _ _ (now_seconds_range w1) Hoff) as Hyear1.
  pose proof (fromutc_year_range _ _ (now_seconds_range w2) Hoff) as Hyear2.
  apply now_seconds_mono in Hclock.
  exists (pystr "The current time in " ++ city ++ pystr " is "
          ++ strftime (pystr "%Y-%m-%d %H:%M:%S %Z%z")
               (fromutc (now_seconds w1) (rule_at tz (now_seconds w1)))),
         (pystr "The current time in " ++ city ++ pystr " is "
          ++ strftime (pystr "%Y-%m-%d %H:%M:%S %Z%z")
               (fromutc (now_seconds w2) (rule_at tz (now_seconds w1)))).
  split; [by rewrite get_current_time_match, Htz1|].
  split; [by rewrite get_current_time_match, Htz2, Hrule|].
  set (r := rule_at tz (now_seconds w1)) in *.
  rewrite !str_le_app_same, !strftime_format by lia.
  destruct (fromutc_fields (now_seconds w1) r)
    as (Hmo1 & Hd1 & Hh1 & Hmi1 & Hs1 & -> & _).
  destruct (fromutc_fields (now_seconds w2) r)
    as (Hmo2 & Hd2 & Hh2 & Hmi2 & Hs2 & -> & _).
  pose proof (fromutc_mono (now_seconds w1) (now_seconds w2) r Hclock) as Hlex.
  set (a := fromutc (now_seconds w1) r) in *.
  set (b := fromutc (now_seconds w2) r) in *.
  rewrite str_le_zpad, (str_le_app_same (pystr "-")) by lia.
  rewrite str_le_zpad, (str_le_app_same (pystr "-")) by lia.
  rewrite str_le_zpad, (str_le_app_same (pystr " ")) by lia.
  rewrite str_le_zpad, (str_le_app_same (pystr ":")) by lia.
  rewrite str_le_zpad, (str_le_app_same (pystr ":")) by lia.
  rewrite str_le_zpad, str_le_refl by lia.
  clearbody a b.
  repeat match goal with
         | |- context [?x <? ?y] =>
             destruct (Z.ltb_spec x y); cbn [orb andb]; [done|]
         | |- context [?x =? ?y] =>
             destruct (Z.eqb_spec x y); cbn [orb andb]; [|lia]
         end.
  done.
Qed.

Lemma get_current_time_same_reading (city : list N) (w1 w2 : World) :
  tzdata w1 = tzdata w2 → now_seconds w1 = now_seconds w2 →
  get_current_time city w1 = get_current_time city w2.
Proof.
  intros Htz Hnow. destruct (decide (lower city = pystr "new york")) as [Hm|Hm].
  - by rewrite !get_current_time_match, Htz, Hnow.
  - by rewrite !get_current_time_no_match.
Qed.

(** X11: the time read from the clock stops at the last second that fits
    64-bit nanoseconds, 2262-04-11 23:47:16 UTC: with the same timezone
    database, [get_current_time] gives one and the same result at every
    clock from there on. *)
Theorem time_report_past_reading (city : list N) (w1 w2 : World) :
  tzdata w1 = tzdata w2 →
  9223372036 <= clock w1 → 9223372036 <= clock w2 →
  now_seconds w1 = 9223372036
  ∧ get_current_time city w1 = get_current_time city w2.
Proof.
  intros Htz H1 H2.
  assert (∀ w, 9223372036 <= clock w → now_seconds w = 9223372036) as Hsat.
  { intros w H. unfold now_seconds, PyTime_GetSystemClock, PyTime_MIN, PyTime_MAX,
      SEC_TO_NS. change (2 ^ 63) with 9223372036854775808. euclid. }
  split; [by apply Hsat|].
  apply get_current_time_same_reading; [done|]. by rewrite !Hsat.
Qed.

End Agent.

(** ** The theorems at sample inputs *)

Lemma C1_witness :
  lower sample_tolower sample_final_sigma (pystr "NEW YORK") = pystr "new york"
  ∧ status_of (get_weather sample_tolower sample_final_sigma (pystr "NEW YORK")
                 sample_world) = Some (pystr "success").
Proof.
  split; [reflexivity|].
  apply (C1_get_weather_new_york sample_tolower sample_final_sigma). reflexivity.
Defined.

(** The city "sunny" is not New York, and the error message for it
    contains "sunny". *)
Lemma C2_counterexample :
  lower sample_tolower sample_final_sigma (pystr "sunny") ≠ pystr "new york"
  ∧ get_weather sample_tolower sample_final_sigma (pystr "sunny") sample_world =
      Return {[ pystr "status" := pystr "error";
                pystr "error_message" :=
                  pystr "Weather information for 'sunny' is not available." ]}
  ∧ contains (pystr "sunny")
      (pystr "Weather information for 'sunny' is not available.") = true.
Proof. split; [by vm_compute|]. split; reflexivity. Qed.

Lemma C2_witness :
  lower sample_tolower sample_final_sigma (pystr "Paris") ≠ pystr "new york"
  ∧ get_weather sample_tolower sample_final_sigma (pystr "Paris") sample_world =
      Return {[ pystr "status" := pystr "error";
                pystr "error_message" :=
                  pystr "Weather information for 'Paris' is not available." ]}
  ∧ contains (pystr "sunny")
      (pystr "Weather information for 'Paris' is not available.") = false.
Proof.
  assert (lower sample_tolower sample_final_sigma (pystr "Paris") ≠ pystr "new york")
    as H by (by vm_compute).
  split; [exact H|].
  destruct (C2_get_weather_error sample_tolower sample_final_sigma
              (pystr "Paris") sample_world H) as (Hret & _ & Hsunny & _).
  split; [exact Hret|]. etransitivity; [exact Hsunny|reflexivity].
Defined.

Lemma C3_witness :
  lower sample_tolower sample_final_sigma (pystr "Tokyo") ≠ pystr "new york"
  ∧ get_current_time sample_tolower sample_final_sigma (pystr "Tokyo") sample_world =
      Return {[ pystr "status" := pystr "error";
                pystr "error_message" :=
                  pystr "Sorry, I don't have timezone information for Tokyo." ]}.
Proof.
  assert (lower sample_tolower sample_final_sigma (pystr "Tokyo") ≠ pystr "new york")
    as H by (by vm_compute).
  split; [exact H|].
  apply (C3_get_current_time_error sample_tolower sample_final_sigma
           (pystr "Tokyo") sample_world H).
Defined.

(** The Kelvin sign is a capital letter whose lowercase is [k]. *)
Lemma C5_witness :
  same_up_to_case sample_tolower (pystr "new york") [78; 69; 87; 32; 89; 79; 82; 0x212A]%N
  ∧ status_of (get_weather sample_tolower sample_final_sigma
                 [78; 69; 87; 32; 89; 79; 82; 0x212A]%N sample_world)
    = status_of (get_weather sample_tolower sample_final_sigma
                   (pystr "new york") sample_world).
Proof.
  assert (same_up_to_case sample_tolower (pystr "new york")
            [78; 69; 87; 32; 89; 79; 82; 0x212A]%N) as H
    by (repeat constructor).
  split; [exact H|].
  destruct (C5_case_insensitive_matching sample_tolower sample_final_sigma
              sample_world) as (_ & Hcase & _).
  destruct (Hcase _ _ H) as [_ Hstatus]. symmetry. exact Hstatus.
Defined.

Lemma C6_witness :
  get_weather sample_tolower sample_final_sigma (pystr "Oslo") sample_world =
    Return {[ pystr "status" := pystr "error";
              pystr "error_message" :=
                pystr "Weather information for 'Oslo' is not available." ]}
  ∧ dom ({[ pystr "status" := pystr "error";
            pystr "error_message" :=
              pystr "Weather information for 'Oslo' is not available." ]}
         : gmap (list N) (list N))
    = {[ pystr "status"; pystr "error_message" ]}.
Proof.
  split; [reflexivity|].
  destruct (C6_exactly_one_variant sample_tolower sample_final_sigma
              (pystr "Oslo") sample_world _ (or_introl eq_refl))
    as [(Hs & _)|(_ & _ & _ & Hdom)]; [discriminate Hs|exact Hdom].
Defined.




Lemma C10_witness :
  lower sample_tolower sample_final_sigma (pystr "Lima") ≠ pystr "new york"
  ∧ get_current_time sample_tolower sample_final_sigma (pystr "Lima") sample_world
    = get_current_time sample_tolower sample_final_sigma (pystr "Lima")
        world_without_tzdata.
Proof.
  assert (lower sample_tolower sample_final_sigma (pystr "Lima") ≠ pystr "new york")
    as H by (by vm_compute).
  split; [exact H|].
  destruct (C10_time_independent_errors sample_tolower sample_final_sigma
              (pystr "Lima") sample_world world_without_tzdata) as (_ & Hsame & _).
  exact (Hsame H).
Defined.

(** ** The further theorems at sample inputs *)

Lemma get_current_time_error_names_city_witness :
  lower sample_tolower sample_final_sigma (pystr "Tokyo") ≠ pystr "new york"
  ∧ get_current_time sample_tolower sample_final_sigma (pystr "Tokyo") sample_world
    ≠ get_current_time sample_tolower sample_final_sigma (pystr "Kyoto")
        world_without_tzdata.
Proof.
  assert (lower sample_tolower sample_final_sigma (pystr "Tokyo") ≠ pystr "new york")
    as H by (by vm_compute).
  split; [exact H|]. intros Heq.
  apply (get_current_time_error_names_city sample_tolower sample_final_sigma
           (pystr "Tokyo") (pystr "Kyoto") sample_world world_without_tzdata H)
    in Heq.
  discriminate Heq.
Defined.


Lemma ascii_city_match_iff_witness :
  Forall (λ c, is_ascii c = true) (pystr "nEw YoRk")
  ∧ status_of (get_weather sample_tolower sample_final_sigma (pystr "nEw YoRk")
                 sample_world) = Some (pystr "success").
Proof.
  assert (Forall (λ c, is_ascii c = true) (pystr "nEw YoRk")) as H
    by (by repeat constructor).
  split; [exact H|].
  destruct (ascii_city_match_iff sample_tolower sample_final_sigma
              (pystr "nEw YoRk") sample_world H) as (_ & Hiff & _).
  apply Hiff. reflexivity.
Defined.

(** "New York" with a line break after it. *)
Lemma stray_ascii_rejected_witness :
  10%N ∈ (pystr "New York" ++ [10%N])
  ∧ is_ascii 10 = true
  ∧ (ascii_lower 10 ∉ pystr "new york")
  ∧ (status_of (get_weather sample_tolower sample_final_sigma
                  (pystr "New York" ++ [10%N]) sample_world)
     = Some (pystr "error")).
Proof.
  assert (10%N ∈ (pystr "New York" ++ [10%N])) as Hin
    by (apply elem_of_app; right; by apply elem_of_cons; left).
  assert (ascii_lower 10 ∉ pystr "new york") as Hout
    by (intros H%list_elem_of_In; simpl in H; intuition discriminate).
  split; [exact Hin|]. split; [reflexivity|]. split; [exact Hout|].
  apply (stray_ascii_rejected sample_tolower sample_final_sigma
           (pystr "New York" ++ [10%N]) 10%N sample_world Hin eq_refl Hout).
Defined.

Lemma kelvin_spelling_accepted_witness :
  sample_tolower KELVIN_SIGN = [ord "k"]
  ∧ status_of (get_weather sample_tolower sample_final_sigma
                 (pystr "NEW YOR" ++ [KELVIN_SIGN]) sample_world)
    = Some (pystr "success").
Proof.
  split; [reflexivity|].
  destruct (kelvin_spelling_accepted sample_tolower sample_final_sigma
              (pystr "NEW YOR") sample_world eq_refl
              ltac:(by repeat constructor) eq_refl) as (_ & Hs & _).
  exact Hs.
Defined.

(** The empty input. *)
Lemma supported_city_length_witness :
  (∀ c, 1 <= length (sample_tolower c) <= 3)%nat
  ∧ status_of (get_weather sample_tolower sample_final_sigma [] sample_world)
    = Some (pystr "error")
  ∧ status_of (get_current_time sample_tolower sample_final_sigma [] sample_world)
    = Some (pystr "error").
Proof.
  assert (∀ c, 1 <= length (sample_tolower c) <= 3)%nat as H.
  { intros c. unfold sample_tolower. destruct (c =? 8490)%N; simpl; lia. }
  split; [exact H|].
  destruct (supported_city_length sample_tolower sample_final_sigma
              [] sample_world H) as (_ & Hout).
  apply Hout. left. simpl. lia.
Defined.

(** ** The theorems on the time report at sample inputs *)





Lemma time_report_date_is_valid_witness :
  -86400 < utcoffset (rule_at sample_new_york (now_seconds sample_world)) < 86400
  ∧ ∃ (y m d : Z) (rest : list N),
      report_of (get_current_time sample_tolower sample_final_sigma (pystr "New York")
                   sample_world) =
        Some (pystr "The current time in " ++ pystr "New York" ++ pystr " is "
              ++ zpad 4 y ++ pystr "-" ++ zpad 2 m ++ pystr "-" ++ zpad 2 d
              ++ pystr " " ++ rest)
      ∧ 1677 <= y <= 2262 ∧ 1 <= m <= 12 ∧ 1 <= d <= days_in_month y m.
Proof.
  assert (-86400 < utcoffset (rule_at sample_new_york (now_seconds sample_world))
          < 86400) as Hoff by (by vm_compute).
  split; [exact Hoff|].
  apply (time_report_date_is_valid sample_tolower sample_final_sigma
           (pystr "New York") sample_world sample_new_york eq_refl eq_refl Hoff).
Defined.

Lemma time_reports_sorted_under_one_rule_witness :
  rule_at sample_new_york (now_seconds sample_world)
  = rule_at sample_new_york (now_seconds sample_world_later)
  ∧ -86400 < utcoffset (rule_at sample_new_york (now_seconds sample_world)) < 86400
  ∧ clock sample_world <= clock sample_world_later
  ∧ ∃ r1 r2 : list N,
      report_of (get_current_time sample_tolower sample_final_sigma (pystr "New York")
                   sample_world) = Some r1
      ∧ report_of (get_current_time sample_tolower sample_final_sigma
                     (pystr "New York") sample_world_later) = Some r2
      ∧ str_le r1 r2 = true.
Proof.
  assert (-86400 < utcoffset (rule_at sample_new_york (now_seconds sample_world))
          < 86400) as Hoff by (by vm_compute).
  assert (clock sample_world <= clock sample_world_later) as H by (by vm_compute).
  split; [reflexivity|]. split; [exact Hoff|]. split; [exact H|].
  apply (time_reports_sorted_under_one_rule sample_tolower sample_final_sigma
           (pystr "New York") sample_world sample_world_later sample_new_york
           eq_refl eq_refl eq_refl eq_refl Hoff H).
Defined.

(** A second and two seconds past the last time read. *)
Lemma time_report_past_reading_witness :
  tzdata world_past_reading = tzdata world_past_reading_later
  ∧ 9223372036 <= clock world_past_reading
  ∧ 9223372036 <= clock world_past_reading_later
  ∧ get_current_time sample_tolower sample_final_sigma (pystr "New York")
      world_past_reading
    = get_current_time sample_tolower sample_final_sigma (pystr "New York")
        world_past_reading_later.
Proof.
  assert (9223372036 <= clock world_past_reading) as H1 by (by vm_compute).
  assert (9223372036 <= clock world_past_reading_later) as H2 by (by vm_compute).
  split; [reflexivity|]. split; [exact H1|]. split; [exact H2|].
  destruct (time_report_past_reading sample_tolower sample_final_sigma
              (pystr "New York") world_past_reading world_past_reading_later
              eq_refl H1 H2) as [_ Hsame].
  exact Hsame.
Defined.
